(** * Worker node of distributed3: execution and data-locality protocol

    A shallow embedding of [src/distributed3/worker.py].  The worker's
    attributes are a record, its dictionary [self.data] is a finite map,
    and every handler is a computation in a small state-and-exception
    monad over the process state: the worker itself, the module-level
    [job_counter], the lines printed by [log], and the calls that went out
    to the Center.  The Center is an oracle that answers each call with a
    value or with an exception. *)

From stdpp Require Import gmap strings list fin_maps.
From Stdlib Require Import ZArith.

Set Warnings "-register-all".

Open Scope Z_scope.
Open Scope string_scope.
Open Scope list_scope.

(** ** Python values *)

(** An exception object: its class name and [str(e)]. *)
Record pyexc := Exc { exc_type : string; exc_msg : string }.

(** The values that travel through the store and through task arguments.
    Bytes and text are both [PStr]. *)
Inductive pyval :=
| PNone
| PInt (z : Z)
| PStr (s : string)
| PExc (e : pyexc)
| PTuple (l : list pyval)
| PDict (l : list (string * pyval)).

(** What awaiting [executor.submit(function, *args2, **kwargs2)] gives: the
    return value, or a raised exception together with the frames that
    [traceback.format_tb(exc_traceback)] lists for it.  The raised object is
    an instance of [Exception], the class named by the handler's [except]. *)
Inductive fun_outcome :=
| Returned (v : pyval)
| Raised (e : pyexc) (frames : list string).

(** A callable: a plain function with an optional [__name__], or an object
    that carries a [func] attribute (such as a partial application) next to
    its own call behaviour. *)
Inductive pyfunc :=
| Func (name : option string)
       (body : list pyval → list (string * pyval) → fun_outcome)
| Wrapper (func : pyfunc)
       (body : list pyval → list (string * pyval) → fun_outcome).

Definition call (f : pyfunc) : list pyval → list (string * pyval) → fun_outcome :=
  match f with
  | Func _ body => body
  | Wrapper _ body => body
  end.

(** [funcname]: strip [.func] wrappers, then [__name__] or ['no-name']. *)
Fixpoint funcname (func : pyfunc) : string :=
  match func with
  | Wrapper func' _ => funcname func'
  | Func (Some name) _ => name
  | Func None _ => "no-name"
  end.

(** ** The worker and the process state *)

Definition address_t : Type := string * Z.

Record Worker := mkWorker {
  ip : string;
  port : Z;
  center_ip : string;
  center_port : Z;
  ncores : Z;
  data : gmap string pyval;
  status : option string;
  listening : bool
}.

Definition address (w : Worker) : address_t := (ip w, port w).

(** A call that left the worker for the Center; [close] is [None] where the
    keyword is not passed. *)
Inductive center_call :=
| Connect (cip : string) (cport : Z)
| Register (n : Z) (addr : address_t)
| Unregister (addr : address_t)
| Gather (needed : list string)
| AddKeys (addr : address_t) (close : option bool) (keys : list string)
| RemoveKeys (addr : address_t) (keys : list string).

(** A line handed to [log] (which is [print]); formatted lines keep their
    arguments. *)
Inductive line :=
| Text (s : string)
| GatherFromPeers (needed : list string)
| StartJob (i : Z) (name : string)
| FinishJob (i : Z) (name : string)
| CouldNotReport (response : string).

Record World := mkWorld {
  self : Worker;
  job_counter : Z;
  printed : list line;
  sent : list center_call
}.

(** What comes back from [add_keys], the one reply the worker decodes: a
    byte string that the interpreter's default codec decodes, a byte string
    that it does not decode (such as [b'\xff']), or an object that is not a
    byte string at all. *)
Inductive reply :=
| Bytes (b : string)
| BadBytes (b : string)
| NotBytes (v : pyval).

(** [response == b'OK'] *)
Definition is_OK (response : reply) : bool :=
  match response with
  | Bytes b | BadBytes b => bool_decide (b = "OK")
  | NotBytes _ => false
  end.

Definition UnicodeDecodeError : pyexc :=
  Exc "UnicodeDecodeError" "codec can't decode byte".
Definition AttributeError : pyexc :=
  Exc "AttributeError" "object has no attribute 'decode'".

(** [response.decode()]: the text, or the exception it raises. *)
Definition decode (response : reply) : pyexc + string :=
  match response with
  | Bytes b => inr b
  | BadBytes _ => inl UnicodeDecodeError
  | NotBytes _ => inl AttributeError
  end.

(** How the Center answers: [inl e] is an exception raised by the call
    (unreachable Center, broken stream, unresolvable key), [inr x] a reply. *)
Record Center := mkCenter {
  on_connect : pyexc + unit;
  on_register : Z → address_t → pyexc + string;
  on_unregister : address_t → pyexc + string;
  on_gather : list string → pyexc + list pyval;
  on_add_keys : address_t → list string → pyexc + reply;
  on_remove_keys : address_t → list string → pyexc + string
}.

(** ** State and exception monad *)

Definition M (A : Type) : Type := World → World * (pyexc + A).

Definition ret {A} (a : A) : M A := λ s, (s, inr a).
Definition raise {A} (e : pyexc) : M A := λ s, (s, inl e).
Definition bind {A B} (m : M A) (k : A → M B) : M B :=
  λ s, match m s with
       | (s', inr a) => k a s'
       | (s', inl e) => (s', inl e)
       end.

Notation "x <~ m ;; k" := (bind m (λ x, k))
  (at level 100, m at next level, right associativity).
Notation "m ;;; k" := (bind m (λ _, k))
  (at level 100, right associativity).

Definition get_self : M Worker := λ s, (s, inr (self s)).
Definition put_self (w : Worker) : M unit :=
  λ s, (mkWorld w (job_counter s) (printed s) (sent s), inr tt).
Definition log (l : line) : M unit :=
  λ s, (mkWorld (self s) (job_counter s) (printed s ++ [l]) (sent s), inr tt).
Definition send (c : center_call) : M unit :=
  λ s, (mkWorld (self s) (job_counter s) (printed s) (sent s ++ [c]), inr tt).
Definition lift_reply {A} (r : pyexc + A) : M A := λ s, (s, r).

Definition set_data (d : gmap string pyval) (w : Worker) : Worker :=
  mkWorker (ip w) (port w) (center_ip w) (center_port w) (ncores w)
           d (status w) (listening w).
Definition set_status (st : option string) (w : Worker) : Worker :=
  mkWorker (ip w) (port w) (center_ip w) (center_port w) (ncores w)
           (data w) st (listening w).
Definition set_listening (b : bool) (w : Worker) : Worker :=
  mkWorker (ip w) (port w) (center_ip w) (center_port w) (ncores w)
           (data w) (status w) b.

(** ** Helpers from the core module *)

(** Modelled from the spec: [connect] and [rpc] belong to
    distributed3/core.py, which is not among the sources.  A call to the
    Center is recorded as sent, then answered by the Center: with a reply, or
    with an exception when the transport fails. *)
Definition rpc {A} (call : center_call) (reply : pyexc + A) : M A :=
  send call ;;;
  lift_reply reply.

Definition connect (c : Center) (cip : string) (cport : Z) : M unit :=
  rpc (Connect cip cport) (on_connect c).

(** Modelled from the spec: [Server.listen] (core.py) binds a listener on the
    configured port. *)
Definition listen (port : Z) : M unit :=
  w <~ get_self ;;
  put_self (set_listening true w).

(** Modelled from the spec: [Server.stop] (core.py) stops accepting new
    connections. *)
Definition stop : M unit :=
  w <~ get_self ;;
  put_self (set_listening false w).

(** ** Helpers from the client module *)

(** Modelled from the spec: [keys_to_data] lives in distributed3/client.py,
    which is not part of the sources at hand.  It substitutes every key
    reference found, recursively, inside the arguments with its value in the
    given view; anything that is not a key of the view stays as it is. *)
Fixpoint keys_to_data (o : pyval) (d : gmap string pyval) : pyval :=
  match o with
  | PStr k => default o (d !! k)
  | PTuple l => PTuple (map (λ x, keys_to_data x d) l)
  | PDict l => PDict (map (λ kv, (kv.1, keys_to_data kv.2 d)) l)
  | _ => o
  end.

Definition keys_to_data_args (args : list pyval) (d : gmap string pyval)
  : list pyval :=
  map (λ x, keys_to_data x d) args.

Definition keys_to_data_kwargs (kwargs : list (string * pyval))
  (d : gmap string pyval) : list (string * pyval) :=
  map (λ kv, (kv.1, keys_to_data kv.2 d)) kwargs.

(** Modelled from the spec: [gather_strict_from_center] lives in
    distributed3/client.py as well.  The request for [needed] goes out; the
    answer is the list of values in the order of [needed], or an exception
    when a key cannot be located or fetched. *)
Definition gather_strict_from_center (c : Center) (needed : list string)
  : M (list pyval) :=
  rpc (Gather needed) (on_gather c needed).

(** Modelled from the spec: the fetches [gather_strict_from_center] makes
    from peers for a request.  The PeerFetcher resolves the set of requested
    keys to their holders and fetches each key of that set from a holder, so
    a key is asked of the peers once, however often the request lists it. *)
Definition peer_requests (needed : list string) : list string :=
  remove_dups needed.

(** [toolz.merge(d1, d2)]: a new dictionary, later arguments win. *)
Definition merge (d1 d2 : gmap string pyval) : gmap string pyval := d2 ∪ d1.

(** [dict(zip(keys, values))]: pairs up to the shorter list, a later pair
    overwrites an earlier one with the same key. *)
Definition dict_zip (keys : list string) (values : list pyval)
  : gmap string pyval :=
  foldl (λ m kv, <[kv.1 := kv.2]> m) ∅ (zip keys values).

(** ** Worker methods *)

Definition AssertionError : pyexc := Exc "AssertionError" "".
Definition KeyError (k : string) : pyexc := Exc "KeyError" k.

(** [Worker.__init__] in a fresh process: [job_counter = [0]], nothing sent.
    [_ncores] is the machine's [ThreadPool()._processes]; [ncores or _ncores]
    takes it when [ncores] is [None] or [0]. *)
Definition Worker_init (_ncores : Z) (ip : string) (port : Z)
  (center_ip : string) (center_port : Z) (ncores : option Z) : World :=
  let n := match ncores with
           | Some n => if bool_decide (n = 0) then _ncores else n
           | None => _ncores
           end in
  let w := mkWorker ip port center_ip center_port n ∅ None false in
  (* log('Start worker'); self.status = 'running' *)
  mkWorld (set_status (Some "running") w) 0 [Text "Start worker"] [].

(** [Worker._start] *)
Definition _start (c : Center) : M unit :=
  w <~ get_self ;;
  listen (port w) ;;;
  resp <~ rpc (Register (ncores w) (address w))
              (on_register c (ncores w) (address w)) ;;
  (if bool_decide (resp = "OK") then ret tt else raise AssertionError) ;;;
  log (Text "Registered with center").

(** [Worker._close] *)
Definition _close (c : Center) : M unit :=
  w <~ get_self ;;
  rpc (Unregister (address w)) (on_unregister c (address w)) ;;;
  stop ;;;
  w <~ get_self ;;
  put_self (set_status (Some "closed") w).

Definition terminate (c : Center) : M unit := _close c.

(** [needed = [n for n in needed if n not in self.data]] *)
Definition missing (d : gmap string pyval) (needed : list string)
  : list string :=
  filter (λ n, n ∉ dom d) needed.

(** The view the arguments are resolved against ([data2]). *)
Definition gather_view (c : Center) (d : gmap string pyval)
  (needed : list string) : M (gmap string pyval) :=
  match needed with
  | [] => ret d
  | _ :: _ =>
      log (GatherFromPeers needed) ;;;
      other <~ gather_strict_from_center c needed ;;
      ret (merge d (dict_zip needed other))
  end.

(** The [try]/[except Exception] block: the stored result and the coarse
    status. *)
Definition run_job (function : pyfunc) (args2 : list pyval)
  (kwargs2 : list (string * pyval)) : M (pyval * string) :=
  λ s,
    let i := job_counter s + 1 in
    let s1 := mkWorld (self s) i (printed s) (sent s) in
    (log (StartJob i (funcname function)) ;;;
     match call function args2 kwargs2 with
     | Returned result =>
         log (FinishJob i (funcname function)) ;;;
         ret (result, "success")
     | Raised e frames =>
         log (Text (exc_msg e)) ;;;
         log (Text (String.concat "" frames)) ;;;
         ret (PExc e, "error")
     end) s1.

(** [Worker.work], the [compute] handler. *)
Definition work (c : Center) (function : pyfunc) (key : string)
  (args : list pyval) (kwargs : list (string * pyval))
  (needed : list string) : M string :=
  w <~ get_self ;;
  connect c (center_ip w) (center_port w) ;;;
  data2 <~ gather_view c (data w) (missing (data w) needed) ;;
  let args2 := keys_to_data_args args data2 in
  let kwargs2 := keys_to_data_kwargs kwargs data2 in
  r <~ run_job function args2 kwargs2 ;;
  let result := r.1 in
  let out_response := r.2 in
  (* Store and tell center about our new data *)
  w <~ get_self ;;
  put_self (set_data (<[key := result]> (data w)) w) ;;;
  response <~ rpc (AddKeys (address w) (Some true) [key])
                  (on_add_keys c (address w) [key]) ;;
  (if is_OK response then ret tt
   else text <~ lift_reply (decode response) ;;
        log (CouldNotReport text)) ;;;
  ret out_response.

(** [Worker.update_data]: [self.data.update(data)], then the report. *)
Definition update_data (c : Center) (data' : gmap string pyval)
  (report : bool) : M string :=
  w <~ get_self ;;
  put_self (set_data (data' ∪ data w) w) ;;;
  (if report then
     let keys := (map_to_list data').*1 in
     rpc (AddKeys (address w) None keys)
         (on_add_keys c (address w) keys) ;;;
     ret tt
   else ret tt) ;;;
  ret "OK".

(** [Worker.delete_data]: present keys are deleted, absent ones skipped. *)
Definition delete_data (c : Center) (keys : list string) (report : bool)
  : M string :=
  w <~ get_self ;;
  put_self (set_data (foldl (λ d k, delete k d) (data w) keys) w) ;;;
  (if report then
     rpc (RemoveKeys (address w) keys)
         (on_remove_keys c (address w) keys) ;;;
     ret tt
   else ret tt) ;;;
  ret "OK".

(** [{k: self.data[k] for k in keys}]: the first absent key raises
    [KeyError]. *)
Fixpoint dict_of_keys (d : gmap string pyval) (keys : list string)
  (acc : gmap string pyval) : pyexc + gmap string pyval :=
  match keys with
  | [] => inr acc
  | k :: keys' =>
      match d !! k with
      | Some v => dict_of_keys d keys' (<[k := v]> acc)
      | None => inl (KeyError k)
      end
  end.

(** [Worker.get_data] *)
Definition get_data (keys : list string) : M (gmap string pyval) :=
  w <~ get_self ;;
  lift_reply (dict_of_keys (data w) keys ∅).

(** ** Vocabulary of the specification *)

(** The coarse status that belongs to a task outcome. *)
Definition coarse_status (o : fun_outcome) : string :=
  match o with
  | Returned _ => "success"
  | Raised _ _ => "error"
  end.

(** The value kept for a task outcome: the return value, or the exception
    object. *)
Definition stored_outcome (o : fun_outcome) : pyval :=
  match o with
  | Returned v => v
  | Raised e _ => PExc e
  end.

(** The lines the [try] block prints for job number [i]. *)
Definition job_lines (i : Z) (name : string) (o : fun_outcome) : list line :=
  StartJob i name ::
  match o with
  | Returned _ => [FinishJob i name]
  | Raised e frames => [Text (exc_msg e); Text (String.concat "" frames)]
  end.

(** The gather requests among the calls sent to the Center. *)
Definition gathers (calls : list center_call) : list (list string) :=
  omap (λ c, match c with Gather needed => Some needed | _ => None end) calls.

(** ** Concrete fixtures *)

Module Fixtures.

(** What the peers hold: [x = 2] and [y = 3]. *)
Definition peers (k : string) : option pyval :=
  if bool_decide (k = "x") then Some (PInt 2)
  else if bool_decide (k = "y") then Some (PInt 3)
  else None.

(** A Center that acknowledges everything and resolves exactly the keys the
    peers hold; asking for any other key raises. *)
Definition center_ok : Center :=
  mkCenter (inr tt) (λ _ _, inr "OK") (λ _, inr "OK")
    (λ ks, match mapM peers ks with
           | Some vs => inr vs
           | None => inl (KeyError "not all keys found")
           end)
    (λ _ _, inr (Bytes "OK")) (λ _ _, inr "OK").

(** The same Center, except that it rejects registration. *)
Definition center_rejects : Center :=
  mkCenter (inr tt) (λ _ _, inr "NO") (λ _, inr "OK")
    (on_gather center_ok) (λ _ _, inr (Bytes "OK")) (λ _ _, inr "OK").

(** The same Center, except that [add_keys] answers something else. *)
Definition center_busy : Center :=
  mkCenter (inr tt) (λ _ _, inr "OK") (λ _, inr "OK")
    (on_gather center_ok) (λ _ _, inr (Bytes "busy")) (λ _ _, inr "OK").

(** The same Center, except that the [add_keys] call breaks. *)
Definition center_down : Center :=
  mkCenter (inr tt) (λ _ _, inr "OK") (λ _, inr "OK")
    (on_gather center_ok) (λ _ _, inl (Exc "StreamClosedError" ""))
    (λ _ _, inr "OK").

(** The one-byte string [b'\xff']. *)
Definition xff : string :=
  String (Ascii.Ascii true true true true true true true true) EmptyString.

(** The same Center, except that [add_keys] answers [b'\xff']. *)
Definition center_garbled : Center :=
  mkCenter (inr tt) (λ _ _, inr "OK") (λ _, inr "OK")
    (on_gather center_ok) (λ _ _, inr (BadBytes xff)) (λ _ _, inr "OK").

Definition add : pyfunc :=
  Func (Some "add")
    (λ args _, match args with
               | [PInt a; PInt b] => Returned (PInt (a + b))
               | _ => Raised (Exc "TypeError" "unsupported operand")
                             ["File worker.py, line 131"]
               end).



(** A fresh worker on a four-core machine. *)
Definition fresh : World := Worker_init 4 "10.0.0.2" 8001 "10.0.0.1" 8000 None.

End Fixtures.

(** ** Further vocabulary *)

(** The same process with another status and listener flag. *)
Definition with_status (st : option string) (b : bool) (s : World) : World :=
  mkWorld (set_listening b (set_status st (self s)))
          (job_counter s) (printed s) (sent s).

(** The keys of a dictionary, in iteration order ([list(data)]). *)
Definition keys_of (d : gmap string pyval) : list string :=
  (map_to_list d).*1.

(** ** Memory handlers of the scheduler's HTTP interface *)

(** [src/distributed/http/scheduler.py]: the handlers [MemoryLoad] and
    [MemoryLoadByKey] read two dictionaries of the scheduler and write a
    dictionary as the response.  [key_split], from the utils module, maps a
    key to its prefix and is a parameter here. *)
Module HttpScheduler.

Record Server := mkServer {
  nbytes : gmap string Z;
  has_what : gmap string (list string)
}.

(** [sum(self.server.nbytes[k] for k in keys)], with the running total; the
    first key without an entry raises [KeyError]. *)
Fixpoint sum_nbytes (nb : gmap string Z) (keys : list string) (acc : Z)
  : pyexc + Z :=
  match keys with
  | [] => inr acc
  | k :: keys' =>
      match nb !! k with
      | Some n => sum_nbytes nb keys' (acc + n)
      | None => inl (KeyError k)
      end
  end.

(** The dictionary comprehension of [MemoryLoad.get] over the items. *)
Fixpoint memory_load_items (nb : gmap string Z)
  (items : list (string * list string)) (out : gmap string Z)
  : pyexc + gmap string Z :=
  match items with
  | [] => inr out
  | (worker, keys) :: items' =>
      match sum_nbytes nb keys 0 with
      | inr total => memory_load_items nb items' (<[worker := total]> out)
      | inl e => inl e
      end
  end.

(** [MemoryLoad.get]: the response written. *)
Definition MemoryLoad_get (server : Server) : pyexc + gmap string Z :=
  memory_load_items (nbytes server) (map_to_list (has_what server)) ∅.

(** The inner loop of [MemoryLoadByKey.get]:
    [d[key_split(key)] += self.server.nbytes[key]] on a [defaultdict] of
    zeros. *)
Fixpoint by_key (key_split : string → string) (nb : gmap string Z)
  (keys : list string) (d : gmap string Z) : pyexc + gmap string Z :=
  match keys with
  | [] => inr d
  | key :: keys' =>
      match nb !! key with
      | Some n =>
          by_key key_split nb keys'
            (<[key_split key := default 0 (d !! key_split key) + n]> d)
      | None => inl (KeyError key)
      end
  end.

(** The outer loop of [MemoryLoadByKey.get]. *)
Fixpoint memory_load_by_key_items (key_split : string → string)
  (nb : gmap string Z) (items : list (string * list string))
  (out : gmap string (gmap string Z)) : pyexc + gmap string (gmap string Z) :=
  match items with
  | [] => inr out
  | (worker, keys) :: items' =>
      match by_key key_split nb keys ∅ with
      | inr d =>
          memory_load_by_key_items key_split nb items' (<[worker := d]> out)
      | inl e => inl e
      end
  end.

(** [MemoryLoadByKey.get]: the response written. *)
Definition MemoryLoadByKey_get (key_split : string → string) (server : Server)
  : pyexc + gmap string (gmap string Z) :=
  memory_load_by_key_items key_split (nbytes server)
    (map_to_list (has_what server)) ∅.

(** The sum of the entries of a dictionary of numbers. *)
Definition total (d : gmap string Z) : Z :=
  map_fold (λ _ v acc, v + acc) 0 d.

(** The bytes of a list of keys, a key without an entry counting zero. *)
Definition bytes_of (nb : gmap string Z) (keys : list string) : Z :=
  foldr (λ k acc, default 0 (nb !! k) + acc) 0 keys.

End HttpScheduler.

(** ** Sanity checks on the fixtures *)

(** The scenario of the specification: an empty store, [add] over [x] and
    [y] fetched from peers, stored under [z]. *)
Example compute_add_scenario :
  let r := work Fixtures.center_ok Fixtures.add "z" [PStr "x"; PStr "y"] []
             ["x"; "y"] Fixtures.fresh in
  r.2 = inr "success" ∧ data (self r.1) !! "z" = Some (PInt 5) ∧
  sent r.1 = [Connect "10.0.0.1" 8000; Gather ["x"; "y"];
              AddKeys ("10.0.0.2", 8001) (Some true) ["z"]].
Proof. vm_compute. auto. Qed.

Example funcname_wrapped :
  funcname (Wrapper (Wrapper Fixtures.add (λ _ _, Returned PNone))
                    (λ _ _, Returned PNone)) = "add"
  ∧ funcname (Func None (λ _ _, Returned PNone)) = "no-name".
Proof. split; reflexivity. Qed.

(** ** Generic facts about the handlers *)

Ltac run_M :=
  cbv [work gather_view gather_strict_from_center run_job _start _close
       terminate get_data connect rpc listen stop bind ret raise log send
       lift_reply get_self put_self set_data set_status set_listening] in *;
  cbn [self job_counter printed sent ip port center_ip center_port ncores
       data status listening fst snd address] in *.

(** Case analysis on the outcome of the function and on the report that
    ends [work]: the call raises, or it is answered with [OK], with a reply
    that decodes, or with one that does not. *)
Ltac report_cases c function :=
  destruct (call function _ _); cbn;
  (destruct (on_add_keys c _ _) as [?|?response]; cbn;
   [|destruct (is_OK response); cbn;
     [|destruct (decode response); cbn]]).

(** [missing] keeps exactly the needed keys that the store lacks. *)
Lemma elem_of_missing (d : gmap string pyval) (needed : list string) k :
  k ∈ missing d needed ↔ k ∈ needed ∧ d !! k = None.
Proof.
  unfold missing. rewrite list_elem_of_filter, not_elem_of_dom. tauto.
Qed.

(** The outcome of a call whose gather raises. *)
Lemma work_gather_raises c function key args kwargs needed s e :
  on_connect c = inr tt →
  missing (data (self s)) needed ≠ [] →
  on_gather c (missing (data (self s)) needed) = inl e →
  work c function key args kwargs needed s =
    (mkWorld (self s) (job_counter s)
       (printed s ++ [GatherFromPeers (missing (data (self s)) needed)])
       ((sent s ++ [Connect (center_ip (self s)) (center_port (self s))])
          ++ [Gather (missing (data (self s)) needed)]),
     inl e).
Proof.
  intros Hc Hm Hg. run_M. rewrite Hc.
  destruct (missing (data (self s)) needed) as [|k m] eqn:E; [done|].
  run_M. rewrite Hg. reflexivity.
Qed.

(** ** Dependency resolution failure *)

(** C1, as stated, fails: with [needed = ["x"; "q"]] and a Center that cannot
    resolve [q], the call does not return [error] but raises the gather's
    exception, and nothing is stored under the result key. *)
Lemma unresolved_key_not_recorded :
  let r := work Fixtures.center_ok Fixtures.add "z" [PStr "x"; PStr "q"] []
             ["x"; "q"] Fixtures.fresh in
  on_gather Fixtures.center_ok ["x"; "q"]
    = inl (KeyError "not all keys found")
  ∧ r.2 = inl (KeyError "not all keys found")
  ∧ r.2 ≠ inr "error"
  ∧ data (self r.1) !! "z" = None.
Proof. vm_compute. repeat split; discriminate. Qed.

(** C1, amended: when the missing set is non-empty and the gather raises,
    the exception leaves the handler as it is; no coarse status is returned,
    the function is not run (the job counter stands still), the worker and
    its store are untouched, and the only calls sent are the connect and the
    gather, so no [add_keys] report goes out. *)
Theorem gather_failure_propagates c function key args kwargs needed s e :
  on_connect c = inr tt →
  missing (data (self s)) needed ≠ [] →
  on_gather c (missing (data (self s)) needed) = inl e →
  let r := work c function key args kwargs needed s in
  r.2 = inl e
  ∧ self r.1 = self s
  ∧ data (self r.1) !! key = data (self s) !! key
  ∧ job_counter r.1 = job_counter s
  ∧ sent r.1 = sent s ++ [Connect (center_ip (self s)) (center_port (self s));
                          Gather (missing (data (self s)) needed)].
Proof.
  intros Hc Hm Hg r. subst r.
  rewrite (work_gather_raises _ _ _ _ _ _ _ _ Hc Hm Hg). cbn.
  rewrite <- app_assoc. auto.
Qed.

Lemma gather_failure_propagates_witness :
  let r := work Fixtures.center_ok Fixtures.add "z" [PStr "x"; PStr "q"] []
             ["x"; "q"] Fixtures.fresh in
  r.2 = inl (KeyError "not all keys found")
  ∧ self r.1 = self Fixtures.fresh
  ∧ data (self r.1) !! "z" = data (self Fixtures.fresh) !! "z"
  ∧ job_counter r.1 = job_counter Fixtures.fresh
  ∧ sent r.1 = sent Fixtures.fresh
        ++ [Connect (center_ip (self Fixtures.fresh))
                    (center_port (self Fixtures.fresh));
            Gather (missing (data (self Fixtures.fresh)) ["x"; "q"])].
Proof.
  apply (gather_failure_propagates Fixtures.center_ok Fixtures.add "z"
           [PStr "x"; PStr "q"] [] ["x"; "q"] Fixtures.fresh
           (KeyError "not all keys found")).
  - reflexivity.
  - vm_compute. discriminate.
  - vm_compute. reflexivity.
Defined.

(** ** Shutdown *)

(** What one [terminate] does to a worker, whatever its status. *)
Lemma terminate_sends_unregister c s :
  sent (terminate c s).1 = sent s ++ [Unregister (address (self s))].
Proof. run_M. destruct (on_unregister c _); reflexivity. Qed.

Lemma terminate_status c s :
  status (self (terminate c s).1) =
    match on_unregister c (address (self s)) with
    | inr _ => Some "closed"
    | inl _ => status (self s)
    end.
Proof. run_M. destruct (on_unregister c _); reflexivity. Qed.

(** C2, as stated, fails: a second [terminate] on a closed worker is not a
    no-op; the Center receives [unregister] a second time. *)
Lemma terminate_twice_unregisters_twice :
  let s1 := (terminate Fixtures.center_ok Fixtures.fresh).1 in
  let s2 := (terminate Fixtures.center_ok s1).1 in
  status (self s1) = Some "closed"
  ∧ sent s1 = [Unregister ("10.0.0.2", 8001)]
  ∧ sent s2 = [Unregister ("10.0.0.2", 8001); Unregister ("10.0.0.2", 8001)]
  ∧ s2 ≠ s1.
Proof. vm_compute. repeat split; discriminate. Qed.

(** C2, amended: on a worker whose status is [closed], [terminate] leaves
    the status [closed], and it sends one more [unregister] to the Center. *)
Theorem terminate_closed_stays_closed c s :
  status (self s) = Some "closed" →
  status (self (terminate c s).1) = Some "closed"
  ∧ sent (terminate c s).1 = sent s ++ [Unregister (address (self s))].
Proof.
  intros Hs. split.
  - rewrite terminate_status. destruct (on_unregister c _); auto.
  - apply terminate_sends_unregister.
Qed.

Lemma terminate_closed_stays_closed_witness :
  let s1 := (terminate Fixtures.center_ok Fixtures.fresh).1 in
  status (self s1) = Some "closed"
  ∧ status (self (terminate Fixtures.center_ok s1).1) = Some "closed"
  ∧ sent (terminate Fixtures.center_ok s1).1
      = sent s1 ++ [Unregister (address (self s1))].
Proof.
  split; [reflexivity|].
  apply (terminate_closed_stays_closed Fixtures.center_ok
           (terminate Fixtures.center_ok Fixtures.fresh).1).
  reflexivity.
Defined.

(** ** Startup *)





(** ** A call that reaches the function *)

Lemma gather_view_value c d m s s' :
  (gather_view c d m s).2 = (gather_view c d m s').2.
Proof. destruct m; run_M; [done|]. destruct (on_gather c _); done. Qed.

(** Everything a [compute] call does once the Center is connected and the
    view is built: the outcome is stored under [key], the job counter moves
    by one, one [add_keys] report goes out, and the answer is the coarse
    status unless the report itself raises. *)
Lemma work_outcome c function key args kwargs needed s data2 :
  on_connect c = inr tt →
  (gather_view c (data (self s)) (missing (data (self s)) needed) s).2
    = inr data2 →
  let o := call function (keys_to_data_args args data2)
                (keys_to_data_kwargs kwargs data2) in
  let reply := on_add_keys c (address (self s)) [key] in
  let r := work c function key args kwargs needed s in
  data (self r.1) = <[key := stored_outcome o]> (data (self s))
  ∧ job_counter r.1 = job_counter s + 1
  ∧ r.2 = match reply with
          | inl e => inl e
          | inr response =>
              if is_OK response then inr (coarse_status o)
              else match decode response with
                   | inl e => inl e
                   | inr _ => inr (coarse_status o)
                   end
          end
  ∧ printed r.1 =
      printed s
      ++ match missing (data (self s)) needed with
         | [] => []
         | m => [GatherFromPeers m]
         end
      ++ job_lines (job_counter s + 1) (funcname function) o
      ++ match reply with
         | inr response =>
             if is_OK response then []
             else match decode response with
                  | inl _ => []
                  | inr text => [CouldNotReport text]
                  end
         | inl _ => []
         end.
Proof.
  intros Hc Hv. run_M. rewrite Hc. cbn.
  destruct (missing (data (self s)) needed) as [|k m] eqn:E; run_M.
  - injection Hv as <-.
    report_cases c function; rewrite <- ?app_assoc; auto.
  - destruct (on_gather c _) as [e0|other]; [discriminate|].
    cbn in Hv. injection Hv as <-. cbn.
    report_cases c function; rewrite <- ?app_assoc; auto.
Qed.

(** The store after any [compute] call, whichever way it ends: untouched, or
    the old store with [key] set. *)
Lemma work_store c function key args kwargs needed s :
  let d' := data (self (work c function key args kwargs needed s).1) in
  d' = data (self s) ∨ ∃ v, d' = <[key := v]> (data (self s)).
Proof.
  run_M. destruct (on_connect c) as [e|[]]; cbn; [auto|].
  destruct (missing (data (self s)) needed) as [|k m]; run_M.
  - report_cases c function; eauto.
  - destruct (on_gather c _); cbn; [auto|].
    report_cases c function; eauto.
Qed.

(** The dictionary comprehension of [get_data], started from [acc]. *)
Lemma dict_of_keys_present (d : gmap string pyval) keys :
  ∀ acc : gmap string pyval,
    (∀ k, k ∈ keys → is_Some (d !! k)) →
    ∃ m : gmap string pyval,
      dict_of_keys d keys acc = inr m
      ∧ ∀ k, m !! k = if decide (k ∈ keys) then d !! k else acc !! k.
Proof.
  induction keys as [|k0 keys IH]; intros acc Hall; cbn.
  - exists acc. split; [done|]. intros k. case_decide as Hin; [|done].
    by apply elem_of_nil in Hin.
  - destruct (Hall k0) as [v Hv]; [left|]. rewrite Hv.
    destruct (IH (<[k0 := v]> acc)) as (m & Hm & Hlook).
    { intros k Hk. apply Hall. by right. }
    exists m. split; [done|]. intros k. rewrite Hlook.
    destruct (decide (k ∈ keys)) as [Hin|Hnin].
    + rewrite decide_True; [done|by right].
    + destruct (decide (k = k0)) as [->|Hne].
      * rewrite decide_True by left. by rewrite lookup_insert_eq.
      * rewrite decide_False.
        -- by rewrite lookup_insert_ne.
        -- intros [?|?]%elem_of_cons; done.
Qed.

(** The first absent key makes [get_data] raise [KeyError]. *)
Lemma dict_of_keys_absent (d : gmap string pyval) keys k :
  ∀ acc : gmap string pyval,
    k ∈ keys → d !! k = None → ∃ k', dict_of_keys d keys acc = inl (KeyError k').
Proof.
  induction keys as [|k0 keys IH]; intros acc Hin Hk; cbn.
  - by apply elem_of_nil in Hin.
  - destruct (d !! k0) as [v|] eqn:E; [|eauto].
    apply IH; [|done]. apply elem_of_cons in Hin as [->|?]; [congruence|done].
Qed.

(** ** Outcome of the user function *)




(** C5, as stated, fails: the function returns [5], the value is stored, but
    the [add_keys] call breaks and the call raises instead of answering
    [success]. *)
Lemma returned_value_but_report_raises :
  let r := work Fixtures.center_down Fixtures.add "z" [PStr "x"; PStr "y"] []
             ["x"; "y"] Fixtures.fresh in
  call Fixtures.add [PInt 2; PInt 3] [] = Returned (PInt 5)
  ∧ data (self r.1) !! "z" = Some (PInt 5)
  ∧ r.2 = inl (Exc "StreamClosedError" "")
  ∧ r.2 ≠ inr "success".
Proof. vm_compute. repeat split; discriminate. Qed.

(** C5, amended: when the user function returns [v], the store maps [key]
    to [v] and [get_data([key])] afterwards returns exactly that value and
    leaves the state alone, whatever happens to the report.  The answer is
    [success] whenever the [add_keys] call returns a reply that is [OK] or
    that decodes for the complaint; when the [add_keys] call itself raises,
    that exception comes out instead of the status. *)
Theorem returned_value_is_stored
  c function key args kwargs needed s data2 v :
  on_connect c = inr tt →
  (gather_view c (data (self s)) (missing (data (self s)) needed) s).2
    = inr data2 →
  call function (keys_to_data_args args data2)
       (keys_to_data_kwargs kwargs data2) = Returned v →
  let r := work c function key args kwargs needed s in
  data (self r.1) !! key = Some v
  ∧ get_data [key] r.1 = (r.1, inr {[key := v]})
  ∧ (∀ response,
       on_add_keys c (address (self s)) [key] = inr response →
       is_OK response = true ∨ (∃ text, decode response = inr text) →
       r.2 = inr "success")
  ∧ (∀ e', on_add_keys c (address (self s)) [key] = inl e' → r.2 = inl e').
Proof.
  intros Hc Hv Hf r.
  destruct (work_outcome c function key args kwargs needed s data2 Hc Hv)
    as (Hd & _ & Hr & _).
  fold r in Hd, Hr. rewrite Hf in Hd, Hr.
  cbn [stored_outcome coarse_status] in Hd, Hr.
  assert (data (self r.1) !! key = Some v) as Hk
    by (rewrite Hd; apply lookup_insert_eq).
  split; [exact Hk|]. split; [|split].
  - clearbody r. unfold get_data, bind, get_self, lift_reply.
    cbn [dict_of_keys]. rewrite Hk. by rewrite insert_empty.
  - intros response Ha Hdec. rewrite Ha in Hr.
    destruct (is_OK response); [exact Hr|].
    destruct Hdec as [?|[text Ht]]; [discriminate|].
    by rewrite Ht in Hr.
  - intros e' Ha. by rewrite Ha in Hr.
Qed.

Lemma returned_value_is_stored_witness :
  let r := work Fixtures.center_ok Fixtures.add "z" [PStr "x"; PStr "y"] []
             ["x"; "y"] Fixtures.fresh in
  data (self r.1) !! "z" = Some (PInt 5)
  ∧ get_data ["z"] r.1 = (r.1, inr {["z" := PInt 5]})
  ∧ (∀ response,
       on_add_keys Fixtures.center_ok (address (self Fixtures.fresh)) ["z"]
         = inr response →
       is_OK response = true ∨ (∃ text, decode response = inr text) →
       r.2 = inr "success")
  ∧ (∀ e', on_add_keys Fixtures.center_ok (address (self Fixtures.fresh))
             ["z"] = inl e' → r.2 = inl e').
Proof.
  apply (returned_value_is_stored Fixtures.center_ok Fixtures.add "z"
           [PStr "x"; PStr "y"] [] ["x"; "y"] Fixtures.fresh
           {["x" := PInt 2; "y" := PInt 3]} (PInt 5)).
  - reflexivity.
  - vm_compute. reflexivity.
  - vm_compute. reflexivity.
Defined.

(** ** Registry report *)

(** C6, at the failing input: the function returns, the value is stored,
    [add_keys] answers the byte [b'\xff'], which is not [OK]; building the
    complaint raises [UnicodeDecodeError] in [response.decode()], so the
    call raises instead of answering [success], and no complaint is
    printed. *)
Lemma undecodable_reply_fails_rpc :
  let r := work Fixtures.center_garbled Fixtures.add "z"
             [PStr "x"; PStr "y"] [] ["x"; "y"] Fixtures.fresh in
  on_add_keys Fixtures.center_garbled ("10.0.0.2", 8001) ["z"]
    = inr (BadBytes Fixtures.xff)
  ∧ is_OK (BadBytes Fixtures.xff) = false
  ∧ data (self r.1) !! "z" = Some (PInt 5)
  ∧ r.2 = inl UnicodeDecodeError
  ∧ r.2 ≠ inr "success"
  ∧ printed r.1 = [Text "Start worker"; GatherFromPeers ["x"; "y"];
                   StartJob 1 "add"; FinishJob 1 "add"].
Proof. vm_compute. repeat split; discriminate. Qed.

(** X24: where the report does what is meant: when [add_keys] is answered
    with a reply that is not [OK] and that decodes, the call still answers the
    coarse status of the task outcome, the outcome is stored, and the last
    line printed is the complaint with the decoded reply. *)
Theorem report_rejection_keeps_status
  c function key args kwargs needed s data2 response text :
  on_connect c = inr tt →
  (gather_view c (data (self s)) (missing (data (self s)) needed) s).2
    = inr data2 →
  on_add_keys c (address (self s)) [key] = inr response →
  is_OK response = false →
  decode response = inr text →
  let o := call function (keys_to_data_args args data2)
                (keys_to_data_kwargs kwargs data2) in
  let r := work c function key args kwargs needed s in
  r.2 = inr (coarse_status o)
  ∧ data (self r.1) !! key = Some (stored_outcome o)
  ∧ last (printed r.1) = Some (CouldNotReport text).
Proof.
  intros Hc Hv Ha Hno Hdec o r.
  destruct (work_outcome c function key args kwargs needed s data2 Hc Hv)
    as (Hd & _ & Hr & Hp).
  fold o r in Hd, Hr, Hp. rewrite Ha, Hno, Hdec in Hr, Hp.
  split; [exact Hr|]. split; [rewrite Hd; apply lookup_insert_eq|].
  rewrite Hp, !app_assoc. apply last_snoc.
Qed.

Lemma report_rejection_keeps_status_witness :
  let o := call Fixtures.add
             (keys_to_data_args [PStr "x"; PStr "y"]
                {["x" := PInt 2; "y" := PInt 3]})
             (keys_to_data_kwargs [] {["x" := PInt 2; "y" := PInt 3]}) in
  let r := work Fixtures.center_busy Fixtures.add "z" [PStr "x"; PStr "y"] []
             ["x"; "y"] Fixtures.fresh in
  r.2 = inr (coarse_status o)
  ∧ data (self r.1) !! "z" = Some (stored_outcome o)
  ∧ last (printed r.1) = Some (CouldNotReport "busy").
Proof.
  apply (report_rejection_keeps_status Fixtures.center_busy Fixtures.add "z"
           [PStr "x"; PStr "y"] [] ["x"; "y"] Fixtures.fresh
           {["x" := PInt 2; "y" := PInt 3]} (Bytes "busy") "busy").
  - reflexivity.
  - vm_compute. reflexivity.
  - reflexivity.
  - reflexivity.
  - reflexivity.
Defined.

(** ** Fetch request *)

Lemma gathers_app l1 l2 : gathers (l1 ++ l2) = gathers l1 ++ gathers l2.
Proof. apply omap_app. Qed.

(** C7: once the Center is connected, the keys requested by the call are
    exactly the needed keys the store lacks, in one gather request; when
    there is no such key, no gather request is sent at all. *)
Theorem fetch_request_is_missing_keys c function key args kwargs needed s :
  on_connect c = inr tt →
  let m := missing (data (self s)) needed in
  let r := work c function key args kwargs needed s in
  (∀ k, k ∈ m ↔ k ∈ needed ∧ data (self s) !! k = None)
  ∧ gathers (sent r.1) = gathers (sent s) ++ match m with
                                             | [] => []
                                             | _ :: _ => [m]
                                             end.
Proof.
  intros Hc m r. split; [intros k; apply elem_of_missing|].
  subst r m. run_M. rewrite Hc. cbn.
  destruct (missing (data (self s)) needed) as [|k m]; run_M.
  - report_cases c function;
      rewrite !gathers_app; cbn; by rewrite !app_nil_r.
  - destruct (on_gather c _); cbn;
      [rewrite !gathers_app; cbn; by rewrite !app_nil_r|].
    report_cases c function;
      rewrite !gathers_app; cbn; by rewrite !app_nil_r.
Qed.

Lemma fetch_request_is_missing_keys_witness :
  let s := (update_data Fixtures.center_ok {["x" := PInt 7]} false
              Fixtures.fresh).1 in
  let m := missing (data (self s)) ["x"; "y"] in
  let r := work Fixtures.center_ok Fixtures.add "z" [PStr "x"; PStr "y"] []
             ["x"; "y"] s in
  m = ["y"]
  ∧ (∀ k, k ∈ m ↔ k ∈ ["x"; "y"] ∧ data (self s) !! k = None)
  ∧ gathers (sent r.1) = gathers (sent s) ++ match m with
                                             | [] => []
                                             | _ :: _ => [m]
                                             end.
Proof.
  split; [vm_compute; reflexivity|].
  apply (fetch_request_is_missing_keys Fixtures.center_ok Fixtures.add "z"
           [PStr "x"; PStr "y"] [] ["x"; "y"]).
  reflexivity.
Defined.

(** ** Frame: the store outside [key] *)

(** C8: a [compute] call never changes the store at a key other than the
    result [key], however it ends; fetched values stay out of the store. *)
Theorem work_preserves_other_keys c function key args kwargs needed s k :
  k ≠ key →
  data (self (work c function key args kwargs needed s).1) !! k
    = data (self s) !! k.
Proof.
  intros Hne.
  destruct (work_store c function key args kwargs needed s) as [->|[v ->]].
  - reflexivity.
  - by apply lookup_insert_ne.
Qed.

Lemma work_preserves_other_keys_witness :
  "x" ≠ "z"
  ∧ data (self (work Fixtures.center_ok Fixtures.add "z"
                  [PStr "x"; PStr "y"] [] ["x"; "y"] Fixtures.fresh).1) !! "x"
    = data (self Fixtures.fresh) !! "x".
Proof.
  assert ("x" ≠ "z") as H by (vm_compute; discriminate).
  split; [exact H|].
  exact (work_preserves_other_keys Fixtures.center_ok Fixtures.add "z"
           [PStr "x"; PStr "y"] [] ["x"; "y"] Fixtures.fresh "x" H).
Defined.

(** ** Duplicates in [needed] *)




(** The filter of [work] keeps every occurrence of a key the store lacks. *)
Lemma missing_keeps_occurrences (d : gmap string pyval) needed k :
  d !! k = None →
  length (filter (λ n, n = k) (missing d needed))
    = length (filter (λ n, n = k) needed).
Proof.
  intros Hk. unfold missing.
  induction needed as [|n needed IH]; [done|].
  rewrite !filter_cons. destruct (decide (n = k)) as [->|Hne].
  - rewrite decide_True by (by apply not_elem_of_dom).
    rewrite filter_cons, decide_True by done. cbn. by rewrite IH.
  - destruct (decide (n ∉ dom d)); [|done].
    by rewrite filter_cons, decide_False.
Qed.

(** The list the worker hands to the gather keeps duplicates: with [x]
    twice in [needed] and absent from the store, the one gather call lists
    [x] twice; removing them is left to the gather. *)
Lemma duplicate_key_in_gather_call :
  let r := work Fixtures.center_ok Fixtures.add "z" [PStr "x"; PStr "x"] []
             ["x"; "x"] Fixtures.fresh in
  gathers (sent r.1) = [["x"; "x"]]
  ∧ peer_requests ["x"; "x"] = ["x"]
  ∧ r.2 = inr "success"
  ∧ data (self r.1) !! "z" = Some (PInt 4).
Proof. vm_compute. repeat split. Qed.




(** ** Reading the store *)

(** C10: when every requested key is present, [get_data] returns the
    dictionary that maps each requested key to its value in the store and
    holds nothing else; the whole state, store and calls sent included, is
    what it was. *)
Theorem get_data_is_pure_read keys s :
  (∀ k, k ∈ keys → is_Some (data (self s) !! k)) →
  ∃ m : gmap string pyval,
    get_data keys s = (s, inr m)
    ∧ (∀ k, k ∈ keys → m !! k = data (self s) !! k)
    ∧ (∀ k, k ∉ keys → m !! k = None).
Proof.
  intros Hall.
  destruct (dict_of_keys_present (data (self s)) keys ∅ Hall)
    as (m & Hm & Hlook).
  exists m. split; [|split].
  - unfold get_data, bind, get_self, lift_reply. by rewrite Hm.
  - intros k Hk. by rewrite Hlook, decide_True.
  - intros k Hk. by rewrite Hlook, decide_False.
Qed.

Lemma get_data_is_pure_read_witness :
  let s := (update_data Fixtures.center_ok {["a" := PInt 1; "b" := PInt 2]}
              true Fixtures.fresh).1 in
  (∀ k, k ∈ ["a"; "b"] → is_Some (data (self s) !! k))
  ∧ ∃ m : gmap string pyval,
      get_data ["a"; "b"] s = (s, inr m)
      ∧ (∀ k, k ∈ ["a"; "b"] → m !! k = data (self s) !! k)
      ∧ (∀ k, k ∉ ["a"; "b"] → m !! k = None).
Proof.
  assert (∀ k, k ∈ ["a"; "b"] →
            is_Some (data (self (update_data Fixtures.center_ok
                       {["a" := PInt 1; "b" := PInt 2]} true
                       Fixtures.fresh).1) !! k)) as H.
  { intros k Hk. apply elem_of_cons in Hk as [->|Hk]; [vm_compute; eauto|].
    apply elem_of_cons in Hk as [->|Hk]; [vm_compute; eauto|].
    by apply elem_of_nil in Hk. }
  split; [exact H|].
  exact (get_data_is_pure_read ["a"; "b"] _ H).
Defined.

(** ** Updating and deleting data *)

Lemma elem_of_keys_of (d : gmap string pyval) k :
  k ∈ keys_of d ↔ is_Some (d !! k).
Proof.
  unfold keys_of. rewrite list_elem_of_fmap. split.
  - intros [[k' v] [-> H]]. apply elem_of_map_to_list in H. eauto.
  - intros [v H]. exists (k, v). split; [done|].
    by apply elem_of_map_to_list.
Qed.

(** Everything [update_data] does. *)
Lemma update_data_outcome c (d : gmap string pyval) report s :
  let r := update_data c d report s in
  self r.1 = set_data (d ∪ data (self s)) (self s)
  ∧ job_counter r.1 = job_counter s
  ∧ printed r.1 = printed s
  ∧ sent r.1 = sent s ++ (if report
                          then [AddKeys (address (self s)) None (keys_of d)]
                          else [])
  ∧ r.2 = if report
          then match on_add_keys c (address (self s)) (keys_of d) with
               | inl e => inl e
               | inr _ => inr "OK"
               end
          else inr "OK".
Proof.
  unfold update_data, keys_of. run_M. destruct report; cbn.
  - destruct (on_add_keys c _ _); cbn; auto.
  - rewrite app_nil_r. auto.
Qed.

Lemma foldl_delete_lookup (keys : list string) :
  ∀ (d : gmap string pyval) k,
    foldl (λ d k, delete k d) d keys !! k
      = if decide (k ∈ keys) then None else d !! k.
Proof.
  induction keys as [|k0 keys IH]; intros d k; cbn.
  - rewrite decide_False; [done|]. apply not_elem_of_nil.
  - rewrite IH. destruct (decide (k ∈ keys)) as [Hin|Hnin].
    + rewrite decide_True; [done|by right].
    + destruct (decide (k = k0)) as [->|Hne].
      * rewrite decide_True by left. apply lookup_delete_eq.
      * rewrite decide_False.
        -- by apply lookup_delete_ne.
        -- intros [?|?]%elem_of_cons; done.
Qed.

(** Everything [delete_data] does. *)
Lemma delete_data_outcome c keys report s :
  let r := delete_data c keys report s in
  self r.1 = set_data (foldl (λ d k, delete k d) (data (self s)) keys) (self s)
  ∧ job_counter r.1 = job_counter s
  ∧ printed r.1 = printed s
  ∧ sent r.1 = sent s ++ (if report
                          then [RemoveKeys (address (self s)) keys]
                          else [])
  ∧ r.2 = if report
          then match on_remove_keys c (address (self s)) keys with
               | inl e => inl e
               | inr _ => inr "OK"
               end
          else inr "OK".
Proof.
  unfold delete_data. run_M. destruct report; cbn.
  - destruct (on_remove_keys c _ _); cbn; auto.
  - rewrite app_nil_r. auto.
Qed.

Lemma update_data_store c (d : gmap string pyval) report s k :
  data (self (update_data c d report s).1) !! k
    = match d !! k with Some v => Some v | None => data (self s) !! k end.
Proof.
  destruct (update_data_outcome c d report s) as (Hself & _).
  rewrite Hself. cbn. rewrite lookup_union.
  destruct (d !! k), (data (self s) !! k); done.
Qed.

Lemma delete_data_store c keys report s k :
  data (self (delete_data c keys report s).1) !! k
    = if decide (k ∈ keys) then None else data (self s) !! k.
Proof.
  destruct (delete_data_outcome c keys report s) as (Hself & _).
  rewrite Hself. cbn. apply foldl_delete_lookup.
Qed.

(** X1: after [update_data(data)], whether or not the report went through,
    [get_data] on the keys of [data] returns exactly [data] and leaves the
    state alone. *)
Theorem update_data_then_get_data c (d : gmap string pyval) report s :
  let s' := (update_data c d report s).1 in
  get_data (keys_of d) s' = (s', inr d).
Proof.
  intros s'.
  destruct (update_data_outcome c d report s) as (Hself & _). fold s' in Hself.
  assert (data (self s') = d ∪ data (self s)) as Hd by (by rewrite Hself).
  destruct (dict_of_keys_present (data (self s')) (keys_of d) ∅)
    as (m & Hm & Hlook).
  { intros k [v Hk]%elem_of_keys_of. rewrite Hd.
    exists v. by apply lookup_union_Some_l. }
  unfold get_data, bind, get_self, lift_reply. rewrite Hm.
  f_equal. f_equal. apply map_eq. intros k. rewrite Hlook.
  destruct (decide (k ∈ keys_of d)) as [Hin|Hnin].
  - apply elem_of_keys_of in Hin as [v Hv]. rewrite Hd, Hv.
    by apply lookup_union_Some_l.
  - rewrite lookup_empty. symmetry. apply eq_None_not_Some.
    by rewrite <- elem_of_keys_of.
Qed.

(** X2: [update_data] overwrites the given keys and leaves the others.  With
    [report] it sends one [add_keys] with the keys of [data] and no [close]
    flag, and answers [OK] whatever the Center replies; only an exception of
    the call itself comes out, and then the store is already updated.
    Without [report] nothing is sent. *)
Theorem update_data_effect c (d : gmap string pyval) report s :
  let r := update_data c d report s in
  (∀ k, data (self r.1) !! k
        = match d !! k with Some v => Some v | None => data (self s) !! k end)
  ∧ sent r.1 = sent s ++ (if report
                          then [AddKeys (address (self s)) None (keys_of d)]
                          else [])
  ∧ r.2 = if report
          then match on_add_keys c (address (self s)) (keys_of d) with
               | inl e => inl e
               | inr _ => inr "OK"
               end
          else inr "OK".
Proof.
  intros r.
  destruct (update_data_outcome c d report s) as (Hself & _ & _ & Hs & Hr).
  fold r in Hself, Hs, Hr. split; [|auto].
  intros k. apply update_data_store.
Qed.

(** X3: [delete_data] removes every listed key and nothing else; keys the
    worker does not hold are skipped.  With [report] it sends one
    [remove_keys] carrying the list as given, and answers [OK] whatever the
    Center replies. *)
Theorem delete_data_effect c keys report s :
  let r := delete_data c keys report s in
  (∀ k, data (self r.1) !! k
        = if decide (k ∈ keys) then None else data (self s) !! k)
  ∧ sent r.1 = sent s ++ (if report
                          then [RemoveKeys (address (self s)) keys]
                          else [])
  ∧ r.2 = if report
          then match on_remove_keys c (address (self s)) keys with
               | inl e => inl e
               | inr _ => inr "OK"
               end
          else inr "OK".
Proof.
  intros r.
  destruct (delete_data_outcome c keys report s) as (Hself & _ & _ & Hs & Hr).
  fold r in Hself, Hs, Hr. split; [|auto].
  intros k. apply delete_data_store.
Qed.

(** X4: deleting the same keys again changes nothing in the store, yet the
    second call reports to the Center once more. *)
Theorem delete_data_twice c1 c2 keys report1 report2 s :
  let s1 := (delete_data c1 keys report1 s).1 in
  let r := delete_data c2 keys report2 s1 in
  data (self r.1) = data (self s1)
  ∧ sent r.1 = sent s1 ++ (if report2
                           then [RemoveKeys (address (self s)) keys]
                           else []).
Proof.
  intros s1 r.
  destruct (delete_data_outcome c1 keys report1 s) as (Hself1 & _).
  destruct (delete_data_outcome c2 keys report2 s1) as (Hself & _ & _ & Hs & _).
  fold s1 in Hself1. fold r in Hself, Hs. split.
  - apply map_eq. intros k. rewrite Hself. cbn.
    rewrite foldl_delete_lookup. case_decide as Hin; [|done].
    rewrite Hself1. cbn. rewrite foldl_delete_lookup.
    by rewrite decide_True.
  - rewrite Hs, Hself1. reflexivity.
Qed.

(** The comprehension of [get_data] stops at the first key the store lacks. *)
Lemma dict_of_keys_first_absent (d : gmap string pyval) pre k post :
  ∀ acc : gmap string pyval,
    (∀ k', k' ∈ pre → is_Some (d !! k')) →
    d !! k = None →
    dict_of_keys d (pre ++ k :: post) acc = inl (KeyError k).
Proof.
  induction pre as [|k0 pre IH]; intros acc Hpre Hk; cbn.
  - by rewrite Hk.
  - destruct (Hpre k0) as [v Hv]; [left|]. rewrite Hv.
    apply IH; [|done]. intros k' Hk'. apply Hpre. by right.
Qed.

(** X5: when some requested key is absent, [get_data] raises [KeyError] for
    the first absent key in the order of the request; it returns no partial
    result and changes nothing. *)
Theorem get_data_missing_key pre k post s :
  (∀ k', k' ∈ pre → is_Some (data (self s) !! k')) →
  data (self s) !! k = None →
  get_data (pre ++ k :: post) s = (s, inl (KeyError k)).
Proof.
  intros Hpre Hk. unfold get_data, bind, get_self, lift_reply.
  by rewrite (dict_of_keys_first_absent _ _ _ _ ∅ Hpre Hk).
Qed.

Lemma get_data_missing_key_witness :
  let s := (update_data Fixtures.center_ok {["a" := PInt 1; "b" := PInt 2]}
              false Fixtures.fresh).1 in
  (∀ k', k' ∈ ["a"] → is_Some (data (self s) !! k'))
  ∧ data (self s) !! "q" = None
  ∧ get_data (["a"] ++ "q" :: ["b"; "r"]) s = (s, inl (KeyError "q")).
Proof.
  assert (∀ k', k' ∈ ["a"] →
            is_Some (data (self (update_data Fixtures.center_ok
                       {["a" := PInt 1; "b" := PInt 2]} false
                       Fixtures.fresh).1) !! k')) as Hpre.
  { intros k' Hk'. apply list_elem_of_singleton in Hk' as ->.
    vm_compute. eauto. }
  assert (data (self (update_data Fixtures.center_ok
                       {["a" := PInt 1; "b" := PInt 2]} false
                       Fixtures.fresh).1) !! "q" = None) as Hq
    by (vm_compute; reflexivity).
  split; [exact Hpre|]. split; [exact Hq|].
  exact (get_data_missing_key ["a"] "q" ["b"; "r"] _ Hpre Hq).
Defined.

(** X6: once [delete_data] has run on a list of keys, asking [get_data] for
    any of them raises [KeyError] for that key. *)
Theorem delete_data_then_get_data c keys report s k :
  k ∈ keys →
  let s' := (delete_data c keys report s).1 in
  get_data [k] s' = (s', inl (KeyError k)).
Proof.
  intros Hin s'.
  unfold get_data, bind, get_self, lift_reply.
  rewrite (dict_of_keys_first_absent (data (self s')) [] k [] ∅); [done| |].
  - intros k' Hk'. by apply elem_of_nil in Hk'.
  - subst s'. rewrite delete_data_store. by rewrite decide_True.
Qed.

Lemma delete_data_then_get_data_witness :
  let s := (update_data Fixtures.center_ok {["a" := PInt 1; "b" := PInt 2]}
              false Fixtures.fresh).1 in
  let s' := (delete_data Fixtures.center_ok ["b"; "zz"] true s).1 in
  "b" ∈ ["b"; "zz"]
  ∧ get_data ["b"] s' = (s', inl (KeyError "b")).
Proof.
  assert ("b" ∈ ["b"; "zz"]) as Hin by left.
  split; [exact Hin|].
  exact (delete_data_then_get_data Fixtures.center_ok ["b"; "zz"] true _ "b"
           Hin).
Defined.

(** X7: [delete_data] on the keys of [data] undoes an [update_data(data)]
    whose keys were all new to the store: the store is back to what it was. *)
Theorem update_data_then_delete_data c1 c2 (d : gmap string pyval)
  report1 report2 s :
  (∀ k, is_Some (d !! k) → data (self s) !! k = None) →
  let s1 := (update_data c1 d report1 s).1 in
  data (self (delete_data c2 (keys_of d) report2 s1).1) = data (self s).
Proof.
  intros Hfresh s1.
  apply map_eq. intros k. rewrite delete_data_store.
  destruct (decide (k ∈ keys_of d)) as [Hin|Hnin].
  - symmetry. apply Hfresh. by apply elem_of_keys_of.
  - subst s1. rewrite update_data_store.
    destruct (d !! k) as [v|] eqn:E; [|done].
    exfalso. apply Hnin. apply elem_of_keys_of. eauto.
Qed.

Lemma update_data_then_delete_data_witness :
  let d : gmap string pyval := {["a" := PInt 1; "b" := PInt 2]} in
  let s := (update_data Fixtures.center_ok {["x" := PInt 7]} false
              Fixtures.fresh).1 in
  let s1 := (update_data Fixtures.center_ok d true s).1 in
  (∀ k, is_Some (d !! k) → data (self s) !! k = None)
  ∧ data (self (delete_data Fixtures.center_ok (keys_of d) true s1).1)
    = data (self s).
Proof.
  assert (∀ k, is_Some (({["a" := PInt 1; "b" := PInt 2]}
                          : gmap string pyval) !! k) →
               data (self (update_data Fixtures.center_ok {["x" := PInt 7]}
                             false Fixtures.fresh).1) !! k = None) as H.
  { intros k Hk. apply elem_of_keys_of in Hk.
    assert (keys_of {["a" := PInt 1; "b" := PInt 2]} = ["a"; "b"]) as Hks
      by (vm_compute; reflexivity).
    rewrite Hks in Hk.
    apply elem_of_cons in Hk as [->|Hk]; [vm_compute; reflexivity|].
    apply list_elem_of_singleton in Hk as ->. vm_compute. reflexivity. }
  split; [exact H|].
  exact (update_data_then_delete_data Fixtures.center_ok Fixtures.center_ok
           {["a" := PInt 1; "b" := PInt 2]} true true _ H).
Defined.

(** ** The view a task is resolved against *)

(** Which keys [dict(zip(keys, values))] holds: the keys that still had a
    value to pair with. *)
Lemma foldl_insert_zip_is_Some (keys : list string) :
  ∀ (values : list pyval) (acc : gmap string pyval) k,
    is_Some (foldl (λ m kv, <[kv.1 := kv.2]> m) acc (zip keys values) !! k)
    ↔ k ∈ take (length values) keys ∨ is_Some (acc !! k).
Proof.
  induction keys as [|k0 keys IH]; intros values acc k.
  - cbn. rewrite take_nil, elem_of_nil. tauto.
  - destruct values as [|v values]; cbn.
    + rewrite elem_of_nil. tauto.
    + rewrite IH, elem_of_cons.
      destruct (decide (k = k0)) as [->|Hne].
      * rewrite lookup_insert_eq. split; [auto|]. intros _. right. eauto.
      * rewrite lookup_insert_ne by done. tauto.
Qed.

Lemma dict_zip_is_Some keys values k :
  is_Some (dict_zip keys values !! k) ↔ k ∈ take (length values) keys.
Proof.
  unfold dict_zip. rewrite foldl_insert_zip_is_Some, lookup_empty.
  split; [intros [?|[? ?]]; done|auto].
Qed.

(** The fetched dictionary never holds a key of the store. *)
Lemma dict_zip_missing_local (d : gmap string pyval) needed other k :
  is_Some (d !! k) → dict_zip (missing d needed) other !! k = None.
Proof.
  intros Hk. apply eq_None_not_Some. rewrite dict_zip_is_Some.
  intros Hin. apply subseteq_take in Hin.
  apply elem_of_missing in Hin as [_ Hn].
  rewrite Hn in Hk. by destruct Hk.
Qed.

(** X8: whatever the gather answers, the view extends the store: every key
    the worker holds keeps its local value in the view. *)
Theorem view_keeps_local_values c (d : gmap string pyval) needed s data2 k v :
  (gather_view c d (missing d needed) s).2 = inr data2 →
  d !! k = Some v →
  data2 !! k = Some v.
Proof.
  intros Hv Hk. destruct (missing d needed) as [|k0 m] eqn:E; run_M.
  - by injection Hv as <-.
  - destruct (on_gather c _) as [e|other]; [discriminate|].
    cbn [fst snd] in Hv. injection Hv as <-. unfold merge.
    rewrite lookup_union_r; [done|].
    rewrite <- E. apply dict_zip_missing_local. eauto.
Qed.

Lemma view_keeps_local_values_witness :
  let d : gmap string pyval := {["x" := PInt 7]} in
  (gather_view Fixtures.center_ok d (missing d ["x"; "y"]) Fixtures.fresh).2
    = inr {["x" := PInt 7; "y" := PInt 3]}
  ∧ d !! "x" = Some (PInt 7)
  ∧ ({["x" := PInt 7; "y" := PInt 3]} : gmap string pyval) !! "x"
    = Some (PInt 7).
Proof.
  assert ((gather_view Fixtures.center_ok {["x" := PInt 7]}
             (missing {["x" := PInt 7]} ["x"; "y"]) Fixtures.fresh).2
          = inr {["x" := PInt 7; "y" := PInt 3]}) as Hv
    by (vm_compute; reflexivity).
  assert (({["x" := PInt 7]} : gmap string pyval) !! "x" = Some (PInt 7))
    as Hk by (vm_compute; reflexivity).
  split; [exact Hv|]. split; [exact Hk|].
  exact (view_keeps_local_values Fixtures.center_ok {["x" := PInt 7]}
           ["x"; "y"] Fixtures.fresh _ "x" (PInt 7) Hv Hk).
Defined.

(** X9: the keys of the view are the keys of the store together with the
    requested keys that got a value; the length of the answer is not
    checked, so when the gather answers with fewer values than requested the
    trailing keys are left out of the view without any error. *)
Theorem view_keys c (d : gmap string pyval) needed s other :
  missing d needed ≠ [] →
  on_gather c (missing d needed) = inr other →
  ∃ data2,
    (gather_view c d (missing d needed) s).2 = inr data2
    ∧ ∀ k, is_Some (data2 !! k)
           ↔ is_Some (d !! k) ∨ k ∈ take (length other) (missing d needed).
Proof.
  intros Hne Hg.
  exists (merge d (dict_zip (missing d needed) other)). split.
  - destruct (missing d needed) as [|k0 m]; [done|]. run_M.
    by rewrite Hg.
  - intros k. unfold merge. rewrite lookup_union_is_Some, dict_zip_is_Some.
    tauto.
Qed.

Lemma view_keys_witness :
  let c := mkCenter (inr tt) (λ _ _, inr "OK") (λ _, inr "OK")
             (λ _, inr [PInt 2]) (λ _ _, inr (Bytes "OK")) (λ _ _, inr "OK") in
  let d : gmap string pyval := ∅ in
  missing d ["x"; "y"] ≠ []
  ∧ on_gather c (missing d ["x"; "y"]) = inr [PInt 2]
  ∧ ∃ data2,
      (gather_view c d (missing d ["x"; "y"]) Fixtures.fresh).2 = inr data2
      ∧ ∀ k, is_Some (data2 !! k)
             ↔ is_Some (d !! k)
               ∨ k ∈ take (length [PInt 2]) (missing d ["x"; "y"]).
Proof.
  assert (missing (∅ : gmap string pyval) ["x"; "y"] ≠ []) as Hne
    by (vm_compute; discriminate).
  split; [exact Hne|]. split; [reflexivity|].
  exact (view_keys
           (mkCenter (inr tt) (λ _ _, inr "OK") (λ _, inr "OK")
              (λ _, inr [PInt 2]) (λ _ _, inr (Bytes "OK")) (λ _ _, inr "OK"))
           ∅ ["x"; "y"] Fixtures.fresh [PInt 2] Hne eq_refl).
Defined.

(** X10: when the gather answers with as many values as were requested,
    every needed key, local or fetched, is present in the view. *)
Theorem view_covers_needed c (d : gmap string pyval) needed s data2 :
  (gather_view c d (missing d needed) s).2 = inr data2 →
  (∀ other, on_gather c (missing d needed) = inr other →
            length other = length (missing d needed)) →
  ∀ k, k ∈ needed → is_Some (data2 !! k).
Proof.
  intros Hv Hlen k Hk.
  destruct (d !! k) as [v|] eqn:Ed.
  { destruct (missing d needed) as [|k0 m] eqn:E; run_M.
    - injection Hv as <-. eauto.
    - destruct (on_gather c _) as [e|other]; [discriminate|].
      cbn [fst snd] in Hv. injection Hv as <-. unfold merge.
      rewrite lookup_union_is_Some. right. eauto. }
  assert (k ∈ missing d needed) as Hin by (by apply elem_of_missing).
  destruct (missing d needed) as [|k0 m] eqn:E; [by apply elem_of_nil in Hin|].
  run_M. destruct (on_gather c _) as [e|other] eqn:Eg; [discriminate|].
  cbn [fst snd] in Hv. injection Hv as <-. unfold merge.
  rewrite lookup_union_is_Some. left. apply dict_zip_is_Some.
  rewrite (Hlen other eq_refl). rewrite take_ge; [done|reflexivity].
Qed.

Lemma view_covers_needed_witness :
  let d : gmap string pyval := {["x" := PInt 7]} in
  let data2 : gmap string pyval := {["x" := PInt 7; "y" := PInt 3]} in
  (gather_view Fixtures.center_ok d (missing d ["x"; "y"]) Fixtures.fresh).2
    = inr data2
  ∧ (∀ other, on_gather Fixtures.center_ok (missing d ["x"; "y"]) = inr other →
              length other = length (missing d ["x"; "y"]))
  ∧ ∀ k, k ∈ ["x"; "y"] → is_Some (data2 !! k).
Proof.
  assert ((gather_view Fixtures.center_ok {["x" := PInt 7]}
             (missing {["x" := PInt 7]} ["x"; "y"]) Fixtures.fresh).2
          = inr {["x" := PInt 7; "y" := PInt 3]}) as Hv
    by (vm_compute; reflexivity).
  assert (∀ other,
            on_gather Fixtures.center_ok (missing {["x" := PInt 7]} ["x"; "y"])
              = inr other →
            length other = length (missing {["x" := PInt 7]} ["x"; "y"]))
    as Hlen.
  { intros other H. vm_compute in H. injection H as <-. reflexivity. }
  split; [exact Hv|]. split; [exact Hlen|].
  exact (view_covers_needed Fixtures.center_ok {["x" := PInt 7]} ["x"; "y"]
           Fixtures.fresh _ Hv Hlen).
Defined.

(** ** More on [compute] *)




(** X12: an exception raised by the [add_keys] call itself is not caught: it
    leaves the handler in place of the coarse status, after the outcome of
    the task has been stored under [key]; the lines printed are those of the
    gather and of the job, with no complaint about the report. *)
Theorem report_exception_propagates
  c function key args kwargs needed s data2 e :
  on_connect c = inr tt →
  (gather_view c (data (self s)) (missing (data (self s)) needed) s).2
    = inr data2 →
  on_add_keys c (address (self s)) [key] = inl e →
  let o := call function (keys_to_data_args args data2)
                (keys_to_data_kwargs kwargs data2) in
  let r := work c function key args kwargs needed s in
  r.2 = inl e
  ∧ data (self r.1) !! key = Some (stored_outcome o)
  ∧ printed r.1
    = printed s
      ++ match missing (data (self s)) needed with
         | [] => []
         | m => [GatherFromPeers m]
         end
      ++ job_lines (job_counter s + 1) (funcname function) o.
Proof.
  intros Hc Hv Ha o r.
  destruct (work_outcome c function key args kwargs needed s data2 Hc Hv)
    as (Hd & _ & Hr & Hp).
  fold o r in Hd, Hr, Hp. rewrite Ha in Hr, Hp.
  split; [exact Hr|]. split; [rewrite Hd; apply lookup_insert_eq|].
  rewrite Hp. by rewrite app_nil_r.
Qed.

Lemma report_exception_propagates_witness :
  let c := mkCenter (inr tt) (λ _ _, inr "OK") (λ _, inr "OK")
             (on_gather Fixtures.center_ok)
             (λ _ _, inl (Exc "StreamClosedError" "")) (λ _ _, inr "OK") in
  let o := call Fixtures.add
             (keys_to_data_args [PStr "x"; PStr "y"]
                {["x" := PInt 2; "y" := PInt 3]})
             (keys_to_data_kwargs [] {["x" := PInt 2; "y" := PInt 3]}) in
  let r := work c Fixtures.add "z" [PStr "x"; PStr "y"] [] ["x"; "y"]
             Fixtures.fresh in
  r.2 = inl (Exc "StreamClosedError" "")
  ∧ data (self r.1) !! "z" = Some (stored_outcome o)
  ∧ printed r.1
    = printed Fixtures.fresh
      ++ match missing (data (self Fixtures.fresh)) ["x"; "y"] with
         | [] => []
         | m => [GatherFromPeers m]
         end
      ++ job_lines (job_counter Fixtures.fresh + 1) (funcname Fixtures.add) o.
Proof.
  apply (report_exception_propagates
           (mkCenter (inr tt) (λ _ _, inr "OK") (λ _, inr "OK")
              (on_gather Fixtures.center_ok)
              (λ _ _, inl (Exc "StreamClosedError" "")) (λ _ _, inr "OK"))
           Fixtures.add "z" [PStr "x"; PStr "y"] [] ["x"; "y"] Fixtures.fresh
           {["x" := PInt 2; "y" := PInt 3]} (Exc "StreamClosedError" "")).
  - reflexivity.
  - vm_compute. reflexivity.
  - reflexivity.
Defined.

(** X13: when the connection to the Center cannot be opened, the call
    raises that exception at once: the only call sent is the connect, the
    function is not run, nothing is printed and the worker is untouched. *)
Theorem connect_failure_propagates c function key args kwargs needed s e :
  on_connect c = inl e →
  work c function key args kwargs needed s
    = (mkWorld (self s) (job_counter s) (printed s)
         (sent s ++ [Connect (center_ip (self s)) (center_port (self s))]),
       inl e).
Proof. intros Hc. run_M. by rewrite Hc. Qed.

Lemma connect_failure_propagates_witness :
  let c := mkCenter (inl (Exc "ConnectionRefusedError" ""))
             (λ _ _, inr "OK") (λ _, inr "OK") (on_gather Fixtures.center_ok)
             (λ _ _, inr (Bytes "OK")) (λ _ _, inr "OK") in
  let s := Fixtures.fresh in
  work c Fixtures.add "z" [PStr "x"; PStr "y"] [] ["x"; "y"] s
    = (mkWorld (self s) (job_counter s) (printed s)
         (sent s ++ [Connect (center_ip (self s)) (center_port (self s))]),
       inl (Exc "ConnectionRefusedError" "")).
Proof.
  apply (connect_failure_propagates
           (mkCenter (inl (Exc "ConnectionRefusedError" ""))
              (λ _ _, inr "OK") (λ _, inr "OK") (on_gather Fixtures.center_ok)
              (λ _ _, inr (Bytes "OK")) (λ _ _, inr "OK"))
           Fixtures.add "z" [PStr "x"; PStr "y"] [] ["x"; "y"]
           Fixtures.fresh (Exc "ConnectionRefusedError" "")).
  reflexivity.
Defined.

(** X14: however a [compute] call ends, it leaves the worker's address, its
    Center, its capacity, its status and its listener as they were, and the
    job counter either stands still or moves up by one. *)
Theorem work_keeps_worker_attributes c function key args kwargs needed s :
  let r := work c function key args kwargs needed s in
  self r.1 = set_data (data (self r.1)) (self s)
  ∧ (job_counter r.1 = job_counter s ∨ job_counter r.1 = job_counter s + 1).
Proof.
  run_M. destruct (on_connect c) as [e|[]]; cbn.
  { split; [by destruct (self s)|auto]. }
  destruct (missing (data (self s)) needed) as [|k m]; run_M.
  - report_cases c function; auto.
  - destruct (on_gather c _); cbn; [split; [by destruct (self s)|auto]|].
    report_cases c function; auto.
Qed.

(** X15: [compute] never looks at the worker's status or listener: on a
    worker that is closed, or was never started, it answers, stores and
    sends exactly what it would on a running one. *)
Theorem work_ignores_status c function key args kwargs needed s st b :
  let r := work c function key args kwargs needed s in
  let r' := work c function key args kwargs needed (with_status st b s) in
  r'.2 = r.2
  ∧ data (self r'.1) = data (self r.1)
  ∧ sent r'.1 = sent r.1
  ∧ printed r'.1 = printed r.1
  ∧ status (self r'.1) = st.
Proof.
  unfold with_status. run_M.
  destruct (on_connect c) as [e|[]]; cbn; [auto|].
  destruct (missing (data (self s)) needed) as [|k m]; run_M.
  - report_cases c function; auto.
  - destruct (on_gather c _); cbn; [auto|].
    report_cases c function; auto.
Qed.

(** ** More on the lifecycle *)

(** Everything [terminate] does, by the Center's answer to [unregister]. *)
Lemma terminate_outcome c s :
  terminate c s =
    let s1 := mkWorld (self s) (job_counter s) (printed s)
                (sent s ++ [Unregister (address (self s))]) in
    match on_unregister c (address (self s)) with
    | inl e => (s1, inl e)
    | inr _ =>
        (mkWorld (set_status (Some "closed") (set_listening false (self s)))
           (job_counter s) (printed s) (sent s1), inr tt)
    end.
Proof. run_M. destruct (on_unregister c _); reflexivity. Qed.

(** [_start] against a Center that acknowledges. *)
Lemma _start_ok c s :
  on_register c (ncores (self s)) (address (self s)) = inr "OK" →
  _start c s
    = (mkWorld (set_listening true (self s)) (job_counter s)
         (printed s ++ [Text "Registered with center"])
         (sent s ++ [Register (ncores (self s)) (address (self s))]),
       inr tt).
Proof.
  intros Hok. run_M. rewrite Hok.
  by rewrite bool_decide_eq_true_2 by done.
Qed.

(** X16: when the Center acknowledges with [OK], [_start] returns normally
    with the listener bound, one [register] sent with the worker's capacity
    and address, and the registration line printed; status and store are
    untouched. *)
Theorem start_acknowledged c s :
  on_register c (ncores (self s)) (address (self s)) = inr "OK" →
  let r := _start c s in
  r.2 = inr tt
  ∧ listening (self r.1) = true
  ∧ sent r.1 = sent s ++ [Register (ncores (self s)) (address (self s))]
  ∧ printed r.1 = printed s ++ [Text "Registered with center"]
  ∧ status (self r.1) = status (self s)
  ∧ data (self r.1) = data (self s).
Proof.
  intros Hok r. subst r. rewrite (_start_ok c s Hok). cbn. by repeat split.
Qed.

Lemma start_acknowledged_witness :
  let s := Fixtures.fresh in
  let r := _start Fixtures.center_ok s in
  r.2 = inr tt
  ∧ listening (self r.1) = true
  ∧ sent r.1 = sent s ++ [Register (ncores (self s)) (address (self s))]
  ∧ printed r.1 = printed s ++ [Text "Registered with center"]
  ∧ status (self r.1) = status (self s)
  ∧ data (self r.1) = data (self s).
Proof.
  apply (start_acknowledged Fixtures.center_ok Fixtures.fresh).
  reflexivity.
Defined.

(** X17: the listener is bound before registration is attempted, so when
    registration is rejected or the Center cannot be reached, [_start]
    raises and leaves the worker listening. *)
Theorem failed_start_keeps_listener c s :
  on_register c (ncores (self s)) (address (self s)) ≠ inr "OK" →
  let r := _start c s in
  (∃ e, r.2 = inl e)
  ∧ listening (self r.1) = true
  ∧ sent r.1 = sent s ++ [Register (ncores (self s)) (address (self s))].
Proof.
  intros Hrej. run_M.
  destruct (on_register c _ _) as [e|resp]; cbn; [eauto|].
  case_bool_decide; [congruence|]. cbn. eauto.
Qed.

Lemma failed_start_keeps_listener_witness :
  let s := Fixtures.fresh in
  let r := _start Fixtures.center_rejects s in
  on_register Fixtures.center_rejects (ncores (self s)) (address (self s))
    ≠ inr "OK"
  ∧ (∃ e, r.2 = inl e)
  ∧ listening (self r.1) = true
  ∧ sent r.1 = sent s ++ [Register (ncores (self s)) (address (self s))].
Proof.
  assert (on_register Fixtures.center_rejects
            (ncores (self Fixtures.fresh)) (address (self Fixtures.fresh))
          ≠ inr "OK") as H by (vm_compute; discriminate).
  split; [exact H|].
  exact (failed_start_keeps_listener Fixtures.center_rejects Fixtures.fresh H).
Defined.

(** X18: [terminate] does not look at what the Center answers to
    [unregister]: with any reply, [OK] or not, it returns normally, releases
    the listener and sets the status to [closed]; the store is kept. *)
Theorem terminate_answered c s response :
  on_unregister c (address (self s)) = inr response →
  let r := terminate c s in
  r.2 = inr tt
  ∧ status (self r.1) = Some "closed"
  ∧ listening (self r.1) = false
  ∧ data (self r.1) = data (self s)
  ∧ sent r.1 = sent s ++ [Unregister (address (self s))].
Proof.
  intros Ha r. subst r. rewrite terminate_outcome, Ha. cbn. auto.
Qed.

Lemma terminate_answered_witness :
  let c := mkCenter (inr tt) (λ _ _, inr "OK") (λ _, inr "unknown worker")
             (on_gather Fixtures.center_ok) (λ _ _, inr (Bytes "OK"))
             (λ _ _, inr "OK") in
  let s := Fixtures.fresh in
  let r := terminate c s in
  r.2 = inr tt
  ∧ status (self r.1) = Some "closed"
  ∧ listening (self r.1) = false
  ∧ data (self r.1) = data (self s)
  ∧ sent r.1 = sent s ++ [Unregister (address (self s))].
Proof.
  apply (terminate_answered
           (mkCenter (inr tt) (λ _ _, inr "OK") (λ _, inr "unknown worker")
              (on_gather Fixtures.center_ok) (λ _ _, inr (Bytes "OK"))
              (λ _ _, inr "OK"))
           Fixtures.fresh "unknown worker").
  reflexivity.
Defined.

(** X19: when the [unregister] call raises, [terminate] raises with it and
    the shutdown does not happen: the worker, its status and its listener
    included, is exactly what it was. *)
Theorem terminate_unreachable c s e :
  on_unregister c (address (self s)) = inl e →
  terminate c s
    = (mkWorld (self s) (job_counter s) (printed s)
         (sent s ++ [Unregister (address (self s))]),
       inl e).
Proof. intros Ha. by rewrite terminate_outcome, Ha. Qed.

Lemma terminate_unreachable_witness :
  let c := mkCenter (inr tt) (λ _ _, inr "OK")
             (λ _, inl (Exc "ConnectionRefusedError" ""))
             (on_gather Fixtures.center_ok) (λ _ _, inr (Bytes "OK"))
             (λ _ _, inr "OK") in
  let s := (_start Fixtures.center_ok Fixtures.fresh).1 in
  terminate c s
    = (mkWorld (self s) (job_counter s) (printed s)
         (sent s ++ [Unregister (address (self s))]),
       inl (Exc "ConnectionRefusedError" "")).
Proof.
  apply (terminate_unreachable
           (mkCenter (inr tt) (λ _ _, inr "OK")
              (λ _, inl (Exc "ConnectionRefusedError" ""))
              (on_gather Fixtures.center_ok) (λ _ _, inr (Bytes "OK"))
              (λ _ _, inr "OK"))
           (_start Fixtures.center_ok Fixtures.fresh).1
           (Exc "ConnectionRefusedError" "")).
  reflexivity.
Defined.



(** X21: a whole life: a worker that is built, started against a Center
    that acknowledges, and terminated with [unregister] answered, has sent
    one [register] and one [unregister] for the same address, and ends
    closed, not listening, with the empty store it began with. *)
Theorem lifecycle _ncores wip wport cip cport n c1 c2 response :
  let s0 := Worker_init _ncores wip wport cip cport n in
  on_register c1 (ncores (self s0)) (wip, wport) = inr "OK" →
  on_unregister c2 (wip, wport) = inr response →
  let s1 := (_start c1 s0).1 in
  let r := terminate c2 s1 in
  r.2 = inr tt
  ∧ sent r.1 = [Register (ncores (self s0)) (wip, wport); Unregister (wip, wport)]
  ∧ status (self r.1) = Some "closed"
  ∧ listening (self r.1) = false
  ∧ data (self r.1) = ∅.
Proof.
  intros s0 Hreg Hun s1 r. subst r s1.
  rewrite terminate_outcome, (_start_ok c1 s0 Hreg). subst s0.
  unfold address, set_listening, set_status. cbn.
  rewrite Hun. by repeat split.
Qed.

Lemma lifecycle_witness :
  let s0 := Fixtures.fresh in
  let s1 := (_start Fixtures.center_ok s0).1 in
  let r := terminate Fixtures.center_ok s1 in
  r.2 = inr tt
  ∧ sent r.1 = [Register (ncores (self s0)) ("10.0.0.2", 8001);
                Unregister ("10.0.0.2", 8001)]
  ∧ status (self r.1) = Some "closed"
  ∧ listening (self r.1) = false
  ∧ data (self r.1) = ∅.
Proof.
  apply (lifecycle 4 "10.0.0.2" 8001 "10.0.0.1" 8000 None
           Fixtures.center_ok Fixtures.center_ok "OK").
  - reflexivity.
  - reflexivity.
Defined.

(** ** Memory handlers of the scheduler *)

Section memory_handlers.
Import HttpScheduler.
Variable key_split : string → string.

Lemma bytes_of_cons (nb : gmap string Z) k n keys :
  nb !! k = Some n → bytes_of nb (k :: keys) = n + bytes_of nb keys.
Proof. intros Hn. unfold bytes_of. cbn. by rewrite Hn. Qed.

Lemma sum_nbytes_present (nb : gmap string Z) keys :
  ∀ acc,
    (∀ k, k ∈ keys → is_Some (nb !! k)) →
    sum_nbytes nb keys acc = inr (acc + bytes_of nb keys).
Proof.
  induction keys as [|k keys IH]; intros acc Hall; cbn [sum_nbytes].
  - f_equal. unfold bytes_of. cbn. lia.
  - destruct (Hall k) as [n Hn]; [left|]. rewrite Hn.
    rewrite IH by (intros k' Hk'; apply Hall; by right).
    rewrite (bytes_of_cons nb k n keys Hn). f_equal. lia.
Qed.

(** Adding [n] to one group adds [n] to the total. *)
Lemma total_bump (d : gmap string Z) g n :
  total (<[g := default 0 (d !! g) + n]> d) = total d + n.
Proof.
  unfold total.
  assert (∀ (m : gmap string Z) x,
            m !! g = None →
            map_fold (λ _ v acc, v + acc) 0 (<[g := x]> m)
              = x + map_fold (λ _ v acc, v + acc) 0 m) as Hins.
  { intros m x Hm. apply map_fold_insert_L; [|done]. intros. lia. }
  destruct (d !! g) as [x|] eqn:E; cbn.
  - rewrite <- (insert_delete_eq d g (x + n)).
    rewrite Hins by apply lookup_delete_eq.
    rewrite <- (insert_delete_id d g x E) at 2.
    rewrite Hins by apply lookup_delete_eq. lia.
  - rewrite Hins by done. lia.
Qed.

Lemma total_empty : total ∅ = 0.
Proof. unfold total. apply map_fold_empty. Qed.

Lemma by_key_present (nb : gmap string Z) keys :
  ∀ d,
    (∀ k, k ∈ keys → is_Some (nb !! k)) →
    ∃ d', by_key key_split nb keys d = inr d'
          ∧ total d' = total d + bytes_of nb keys.
Proof.
  induction keys as [|k keys IH]; intros d Hall; cbn [by_key].
  - exists d. split; [done|]. unfold bytes_of. cbn. lia.
  - destruct (Hall k) as [n Hn]; [left|]. rewrite Hn.
    destruct (IH (<[key_split k := default 0 (d !! key_split k) + n]> d))
      as (d' & Hd' & Ht).
    { intros k' Hk'. apply Hall. by right. }
    exists d'. split; [done|].
    rewrite Ht, total_bump, (bytes_of_cons nb k n keys Hn). lia.
Qed.

Lemma memory_load_items_present (nb : gmap string Z) items :
  ∀ out,
    NoDup items.*1 →
    (∀ w keys k, (w, keys) ∈ items → k ∈ keys → is_Some (nb !! k)) →
    ∃ out', memory_load_items nb items out = inr out'
            ∧ (∀ w keys, (w, keys) ∈ items →
                         out' !! w = Some (bytes_of nb keys))
            ∧ (∀ w, w ∉ items.*1 → out' !! w = out !! w).
Proof.
  induction items as [|[w0 keys0] items IH]; intros out Hnd Hall.
  - exists out. cbn. split; [done|]. split; [|done].
    intros w keys Hin. by apply elem_of_nil in Hin.
  - cbn in Hnd. apply NoDup_cons in Hnd as [Hw0 Hnd]. cbn.
    rewrite sum_nbytes_present
      by (intros k Hk; apply (Hall w0 keys0); [left|done]).
    destruct (IH (<[w0 := 0 + bytes_of nb keys0]> out) Hnd)
      as (out' & Hout & Hin & Hnot).
    { intros w keys k Hwk. apply (Hall w keys k). by right. }
    exists out'. split; [done|]. split.
    + intros w keys [Heq|Hwk]%elem_of_cons; [|by apply Hin].
      injection Heq as -> ->. rewrite Hnot by done.
      rewrite lookup_insert_eq. by f_equal.
    + intros w Hw. cbn in Hw. apply not_elem_of_cons in Hw as [Hne Hw].
      rewrite Hnot by done. by apply lookup_insert_ne.
Qed.

Lemma memory_load_by_key_items_present (nb : gmap string Z) items :
  ∀ out,
    NoDup items.*1 →
    (∀ w keys k, (w, keys) ∈ items → k ∈ keys → is_Some (nb !! k)) →
    ∃ out', memory_load_by_key_items key_split nb items out = inr out'
            ∧ (∀ w keys, (w, keys) ∈ items →
                         total <$> out' !! w = Some (bytes_of nb keys))
            ∧ (∀ w, w ∉ items.*1 → out' !! w = out !! w).
Proof.
  induction items as [|[w0 keys0] items IH]; intros out Hnd Hall.
  - exists out. cbn. split; [done|]. split; [|done].
    intros w keys Hin. by apply elem_of_nil in Hin.
  - cbn in Hnd. apply NoDup_cons in Hnd as [Hw0 Hnd]. cbn.
    destruct (by_key_present nb keys0 ∅) as (d & Hd & Ht).
    { intros k Hk. apply (Hall w0 keys0); [left|done]. }
    rewrite Hd.
    destruct (IH (<[w0 := d]> out) Hnd) as (out' & Hout & Hin & Hnot).
    { intros w keys k Hwk. apply (Hall w keys k). by right. }
    exists out'. split; [done|]. split.
    + intros w keys [Heq|Hwk]%elem_of_cons; [|by apply Hin].
      injection Heq as -> ->. rewrite Hnot by done.
      rewrite lookup_insert_eq. cbn. rewrite Ht, total_empty.
      by f_equal.
    + intros w Hw. cbn in Hw. apply not_elem_of_cons in Hw as [Hne Hw].
      rewrite Hnot by done. by apply lookup_insert_ne.
Qed.

Lemma not_in_items (m : gmap string (list string)) w :
  m !! w = None → w ∉ (map_to_list m).*1.
Proof.
  intros Hw Hin. apply list_elem_of_fmap in Hin as [[w' keys] [-> Hin]].
  apply elem_of_map_to_list in Hin. cbn in Hw. congruence.
Qed.

(** X22: when every key held by a worker has its size recorded,
    [MemoryLoad] answers with one entry per worker of [has_what], the sum
    of the sizes of the keys that worker holds. *)
Theorem memory_load_sums_sizes server :
  (∀ w keys k, has_what server !! w = Some keys → k ∈ keys →
               is_Some (nbytes server !! k)) →
  MemoryLoad_get server
    = inr (bytes_of (nbytes server) <$> has_what server).
Proof.
  intros Hall. unfold MemoryLoad_get.
  destruct (memory_load_items_present (nbytes server)
              (map_to_list (has_what server)) ∅)
    as (out & Hout & Hin & Hnot).
  { apply NoDup_fst_map_to_list. }
  { intros w keys k Hwk. apply (Hall w keys k).
    by apply elem_of_map_to_list. }
  rewrite Hout. f_equal. apply map_eq. intros w. rewrite lookup_fmap.
  destruct (has_what server !! w) as [keys|] eqn:E; cbn.
  - apply Hin. by apply elem_of_map_to_list.
  - rewrite Hnot by (by apply not_in_items). apply lookup_empty.
Qed.

(** X23: under the same condition [MemoryLoadByKey] answers too, with the
    same workers, and for every worker its per-prefix figures add up to
    the figure [MemoryLoad] gives for that worker, whatever [key_split]
    does. *)
Theorem memory_load_by_key_adds_up server :
  (∀ w keys k, has_what server !! w = Some keys → k ∈ keys →
               is_Some (nbytes server !! k)) →
  ∃ load by_prefix,
    MemoryLoad_get server = inr load
    ∧ MemoryLoadByKey_get key_split server = inr by_prefix
    ∧ ∀ w, total <$> by_prefix !! w = load !! w.
Proof.
  intros Hall.
  destruct (memory_load_items_present (nbytes server)
              (map_to_list (has_what server)) ∅)
    as (load & Hload & Hin & Hnot).
  { apply NoDup_fst_map_to_list. }
  { intros w keys k Hwk. apply (Hall w keys k).
    by apply elem_of_map_to_list. }
  destruct (memory_load_by_key_items_present (nbytes server)
              (map_to_list (has_what server)) ∅)
    as (byp & Hbyp & Hin' & Hnot').
  { apply NoDup_fst_map_to_list. }
  { intros w keys k Hwk. apply (Hall w keys k).
    by apply elem_of_map_to_list. }
  exists load, byp. split; [done|]. split; [done|].
  intros w. destruct (has_what server !! w) as [keys|] eqn:E.
  - apply elem_of_map_to_list in E. by rewrite (Hin w keys E), (Hin' w keys E).
  - apply not_in_items in E. rewrite Hnot, Hnot' by done.
    by rewrite !lookup_empty.
Qed.

End memory_handlers.

Lemma memory_load_sums_sizes_witness :
  let server := HttpScheduler.mkServer
                  {["x-1" := 10; "x-2" := 20; "y-1" := 5]}
                  {["alice:8001" := ["x-1"; "y-1"]; "bob:8002" := ["x-2"]]} in
  HttpScheduler.MemoryLoad_get server
    = inr (HttpScheduler.bytes_of (HttpScheduler.nbytes server)
             <$> HttpScheduler.has_what server)
  ∧ HttpScheduler.MemoryLoad_get server
    = inr {["alice:8001" := 15; "bob:8002" := 20]}.
Proof.
  split; [|vm_compute; reflexivity].
  apply (memory_load_sums_sizes
           (HttpScheduler.mkServer
              {["x-1" := 10; "x-2" := 20; "y-1" := 5]}
              {["alice:8001" := ["x-1"; "y-1"]; "bob:8002" := ["x-2"]]})).
  intros w keys k Hw Hk. cbn [HttpScheduler.has_what] in Hw.
  destruct (decide (w = "alice:8001")) as [->|Hna].
  - vm_compute in Hw. injection Hw as <-.
    apply elem_of_cons in Hk as [->|Hk]; [vm_compute; eauto|].
    apply list_elem_of_singleton in Hk as ->. vm_compute. eauto.
  - destruct (decide (w = "bob:8002")) as [->|Hnb].
    + vm_compute in Hw. injection Hw as <-.
      apply list_elem_of_singleton in Hk as ->. vm_compute. eauto.
    + rewrite lookup_insert_ne in Hw by done.
      by rewrite lookup_singleton_ne in Hw.
Defined.

Lemma memory_load_by_key_adds_up_witness :
  let key_split := λ k : string,
                     match k with String a _ => String a "" | _ => k end in
  let server := HttpScheduler.mkServer
                  {["x-1" := 10; "x-2" := 20; "y-1" := 5]}
                  {["alice:8001" := ["x-1"; "y-1"; "x-2"];
                    "bob:8002" := ["x-2"]]} in
  HttpScheduler.MemoryLoadByKey_get key_split server
    = inr {["alice:8001" := {["x" := 30; "y" := 5]};
            "bob:8002" := {["x" := 20]}]}
  ∧ ∃ load by_prefix,
      HttpScheduler.MemoryLoad_get server = inr load
      ∧ HttpScheduler.MemoryLoadByKey_get key_split server = inr by_prefix
      ∧ ∀ w, HttpScheduler.total <$> by_prefix !! w = load !! w.
Proof.
  split; [vm_compute; reflexivity|].
  apply (memory_load_by_key_adds_up
           (λ k : string, match k with String a _ => String a "" | _ => k end)
           (HttpScheduler.mkServer
              {["x-1" := 10; "x-2" := 20; "y-1" := 5]}
              {["alice:8001" := ["x-1"; "y-1"; "x-2"];
                "bob:8002" := ["x-2"]]})).
  intros w keys k Hw Hk. cbn [HttpScheduler.has_what] in Hw.
  destruct (decide (w = "alice:8001")) as [->|Hna].
  - vm_compute in Hw. injection Hw as <-.
    apply elem_of_cons in Hk as [->|Hk]; [vm_compute; eauto|].
    apply elem_of_cons in Hk as [->|Hk]; [vm_compute; eauto|].
    apply list_elem_of_singleton in Hk as ->. vm_compute. eauto.
  - destruct (decide (w = "bob:8002")) as [->|Hnb].
    + vm_compute in Hw. injection Hw as <-.
      apply list_elem_of_singleton in Hk as ->. vm_compute. eauto.
    + rewrite lookup_insert_ne in Hw by done.
      by rewrite lookup_singleton_ne in Hw.
Defined.
